(** * alertmanager-webhook-servicenow: main.go

    A shallow embedding of [getGroupKey], [dataToIncidentParam],
    [manageIncidents] and the handler [webhook] with [readRequestBody] and
    [sendJSONResponse], together with the library functions they call
    (sort.Strings, template.KV.SortedPairs, the fmt verbs used), followed by
    the properties of the natural-language specification and by further
    properties of the code. *)

From Stdlib Require Import List String Ascii Bool Arith NArith ZArith Lia.
From Stdlib Require Import Permutation Sorted.
Import ListNotations.
Open Scope string_scope.

(** ** Go strings

    A Go string is a sequence of bytes; [string] (a list of [ascii], one per
    byte) is the same data.  Go compares strings byte-wise, which is
    [String.compare]. *)

Definition len (s : string) : nat := String.length s.

(** ** package sort *)

Module sort.

(** [sort.Strings] rearranges a slice of strings into increasing order.
      The library uses an unstable in-place sort; equal strings cannot be
      told apart, so the outcome is the one increasing arrangement, computed
      here by insertion. *)
Fixpoint insert (k : string) (l : list string) : list string :=
    match l with
    | [] => [k]
    | x :: r => if (k <=? x)%string then k :: x :: r else x :: insert k r
    end.

Fixpoint Strings (l : list string) : list string :=
    match l with
    | [] => []
    | k :: r => insert k (Strings r)
    end.

End sort.

(** ** package time *)

Module time.

(** The program's only use of a [time.Time] is to print it with the verb
      [%v], which calls its [String] method.  A time value is represented by
      the text that method yields. *)
Record Time := mkTime { String : string }.

End time.

(** ** package json *)

Module json.
(** [json.Number] is declared as [type Number string]. *)
Definition Number := string.
End json.

(** ** package template (github.com/prometheus/alertmanager/template)

    The types and the method of the library that main.go uses, after the
    library's template.go. *)

Module template.

(** [type Pair struct { Name, Value string }] *)
Record Pair := mkPair { Name : string; Value : string }.

(** [type Pairs []Pair] *)
Definition Pairs := list Pair.

(** [type KV map[string]string].  A Go map has no order of its own and
      [range] visits its entries in an order that changes from run to run.
      A map is represented by its entries listed in the order [range] visits
      them; the keys of a map are pairwise distinct ([wf]). *)
Definition KV := list (string * string).

Definition keys (kv : KV) : list string := map fst kv.

Definition wf (kv : KV) : Prop := NoDup (keys kv).

(** [kv[k]]: the value stored under [k], the empty string when absent. *)
Fixpoint get (kv : KV) (k : string) : string :=
    match kv with
    | [] => ""
    | (k', v) :: r => if (k' =? k)%string then v else get r k
    end.

(** [model.AlertNameLabel] *)
Definition AlertNameLabel : string := "alertname".

(** The first loop of [KV.SortedPairs]:
<<
      for k := range kv {
          if k == string(model.AlertNameLabel) {
              keys = append([]string{k}, keys...)
              sortStart = 1
          } else {
              keys = append(keys, k)
          }
      }
>>
      run over the keys in the order [range] yields them. *)
Fixpoint collect (ks : list string) (keys : list string) (sortStart : nat)
    : list string * nat :=
    match ks with
    | [] => (keys, sortStart)
    | k :: r =>
        if (k =? AlertNameLabel)%string
        then collect r (k :: keys) 1
        else collect r (keys ++ [k])%list sortStart
    end.

(** [func (kv KV) SortedPairs() Pairs]: after the loop above,
<<
      sort.Strings(keys[sortStart:])
      for _, k := range keys {
          pairs = append(pairs, Pair{k, kv[k]})
      }
>>
      so the label [alertname], when present, comes first and the other
      names follow in increasing order. *)
Definition SortedPairs (kv : KV) : Pairs :=
    let '(ks, sortStart) := collect (keys kv) [] 0 in
    let ks' := (firstn sortStart ks ++ sort.Strings (skipn sortStart ks))%list in
    map (fun k => mkPair k (get kv k)) ks'.

Module Alert.
(** [type Alert struct] *)
Record t := mk {
      Status : string;
      Labels : KV;
      Annotations : KV;
      StartsAt : time.Time;
      EndsAt : time.Time;
      GeneratorURL : string
    }.
End Alert.

Module Data.
(** [type Data struct] *)
Record t := mk {
      Receiver : string;
      Status : string;
      Alerts : list Alert.t;
      GroupLabels : KV;
      CommonLabels : KV;
      CommonAnnotations : KV;
      ExternalURL : string
    }.
End Data.

End template.

(** ** package fmt *)

Module fmt.

(** The verb [%v] applied to a [template.Pair]: a struct prints as its
      field values between braces, separated by one space. *)
Definition Sprint_Pair (p : template.Pair) : string :=
    "{" ++ template.Name p ++ " " ++ template.Value p ++ "}".

(** The verb [%v] applied to a [template.Pairs]: a slice prints as its
      elements between brackets, separated by one space.  ([Pairs] has the
      methods [Names] and [Values] only, so the default format applies.) *)
Definition Sprint_Pairs (ps : template.Pairs) : string :=
    "[" ++ String.concat " " (map Sprint_Pair ps) ++ "]".

End fmt.

(** ** servicenow.go: the types main.go uses *)

Module IncidentParam.
(** [type IncidentParam struct]: the declaration lives in servicenow.go; the
    fields are the ones the composite literal of [dataToIncidentParam]
    sets. *)
Record t := mk {
  AssignmentGroup : string;
  CallerID : string;
  Comments : string;
  Description : string;
  Impact : json.Number;
  ShortDescription : string;
  GroupKey : string;
  Urgency : json.Number
}.
End IncidentParam.

Module Incident.
(** Modelled from the spec: [Incident] is declared in servicenow.go, absent
    here.  The spec's ExistingIncidentRef is [{ sysID: opaque identifier,
    number: human-readable identifier }]; main.go reads both through
    [GetSysID] and [GetNumber]. *)
Record t := mk { number : string; sysID : string }.

Definition GetNumber (i : t) : string := number i.
Definition GetSysID (i : t) : string := sysID i.
End Incident.

(** A Go [error] value, represented by its message; [None] is [nil]. *)
Definition error := string.

(** ** main.go: configuration *)

Module ServiceNowConfig.
Record t := mk {
  InstanceName : string;
  UserName : string;
  Password : string;
  IncidentGroupKeyField : string
}.
End ServiceNowConfig.

Module DefaultIncidentConfig.
Record t := mk {
  AssignmentGroup : string;
  Impact : json.Number;
  Urgency : json.Number
}.
End DefaultIncidentConfig.

Module Config.
Record t := mk {
  ServiceNow : ServiceNowConfig.t;
  DefaultIncident : DefaultIncidentConfig.t
}.
End Config.

(** ** The incident-tracker gateway *)

(** Modelled from the spec: the interface [ServiceNow] is declared in
    servicenow.go, absent here.  Its three methods are the ones main.go
    calls; each returns a value and an [error], as the call sites show.  The
    tracker is an arbitrary machine with states [G]: an answer may depend on
    every call made before. *)
Record ServiceNow (G : Type) := mkServiceNow {
  GetIncidents :
    list (string * string) -> G -> (list Incident.t * option error) * G;
  CreateIncident :
    IncidentParam.t -> G -> (option Incident.t * option error) * G;
  UpdateIncident :
    IncidentParam.t -> string -> G -> (option Incident.t * option error) * G
}.
Arguments GetIncidents {G}.
Arguments CreateIncident {G}.
Arguments UpdateIncident {G}.

(** A call received by the gateway. *)
Inductive Call :=
| CallGet (params : list (string * string))
| CallCreate (incident : IncidentParam.t)
| CallUpdate (incident : IncidentParam.t) (sysID : string).

Definition isCreate (c : Call) : bool :=
  match c with CallCreate _ => true | _ => false end.

Definition isUpdate (c : Call) : bool :=
  match c with CallUpdate _ _ => true | _ => false end.

Definition isWrite (c : Call) : bool := isCreate c || isUpdate c.

(** The world a request runs in: the tracker's state and the calls it has
    received so far, oldest first. *)
Record World (G : Type) := mkWorld { tracker : G; calls : list Call }.
Arguments mkWorld {G}.
Arguments tracker {G}.
Arguments calls {G}.

(** Computations that talk to the tracker. *)
Definition M (G A : Type) : Type := World G -> A * World G.

Definition ret {G A} (a : A) : M G A := fun w => (a, w).

Definition bind {G A B} (m : M G A) (k : A -> M G B) : M G B :=
  fun w => let '(a, w') := m w in k a w'.

Notation "x <- m ;; k" := (bind m (fun x => k))
  (at level 61, m at next level, right associativity).
Notation "' p <- m ;; k" := (bind m (fun x => let 'p := x in k))
  (at level 61, p pattern, m at next level, right associativity).

(** One call: the tracker answers and moves on, the call is recorded. *)
Definition invoke {G A} (c : Call) (f : G -> A * G) : M G A :=
  fun w => let '(a, g) := f (tracker w) in
           (a, mkWorld g (calls w ++ [c])%list).

(** ** main.go: the reconciliation core *)

Import template.

(** The line feed of ["\n"]. *)
Definition LF : string := String "010"%char EmptyString.

(** [func getGroupKey(data template.Data) string]:
    [fmt.Sprintf("%v", data.GroupLabels.SortedPairs())]. *)
Definition getGroupKey (data : Data.t) : string :=
  fmt.Sprint_Pairs (SortedPairs (Data.GroupLabels data)).

(** One turn of the loop over the group labels; [b] is the content of
    [groupKeyBuilder]. *)
Definition writeGroupLabel (b : string) (label : Pair) : string :=
  let b := if (0 <? len b)%nat then b ++ ", " else b in
  b ++ (Name label ++ ": " ++ Value label).

(** One turn of the loops over an alert's labels and annotations; [b] is the
    content of [alertBuilder]. *)
Definition writeAlertLine (b : string) (p : Pair) : string :=
  b ++ (LF ++ "- " ++ Name p ++ ": " ++ Value p).

(** The content of [alertBuilder] when the body of the loop over
    [data.Alerts] reaches its last statement. *)
Definition alertText (alert : Alert.t) : string :=
  let alertBuilder :=
    "[" ++ Alert.Status alert ++ "] " ++ time.String (Alert.StartsAt alert) in
  let alertBuilder :=
    fold_left writeAlertLine (SortedPairs (Alert.Labels alert)) alertBuilder in
  let alertBuilder :=
    fold_left writeAlertLine (SortedPairs (Alert.Annotations alert))
      alertBuilder in
  alertBuilder.

(** One turn of the loop over [data.Alerts]; [b] is the content of
    [commentBuilder]. *)
Definition writeAlert (b : string) (alert : Alert.t) : string :=
  b ++ (LF ++ LF ++ alertText alert).

Section Main.

(** The package variable [config]. *)
Variable config : Config.t.

(** [func dataToIncidentParam(data template.Data) IncidentParam] *)
Definition dataToIncidentParam (data : Data.t) : IncidentParam.t :=
  let shortDescriptionBuilder := "[" ++ Data.Status data ++ "] " in
  let groupKeyBuilder :=
    fold_left writeGroupLabel (SortedPairs (Data.GroupLabels data)) "" in
  let shortDescriptionBuilder := shortDescriptionBuilder ++ groupKeyBuilder in
  let descriptionBuilder := "Group key: " ++ groupKeyBuilder in
  let descriptionBuilder :=
    descriptionBuilder ++ (LF ++ "AlertManager receiver: " ++ Data.Receiver data) in
  let descriptionBuilder :=
    descriptionBuilder
    ++ (LF ++ "AlertManager source URL: " ++ Data.ExternalURL data) in
  let commentBuilder := fold_left writeAlert (Data.Alerts data) "Alerts list:" in
  {| IncidentParam.AssignmentGroup :=
       DefaultIncidentConfig.AssignmentGroup (Config.DefaultIncident config);
     IncidentParam.CallerID :=
       ServiceNowConfig.UserName (Config.ServiceNow config);
     IncidentParam.Comments := commentBuilder;
     IncidentParam.Description := descriptionBuilder;
     IncidentParam.Impact :=
       DefaultIncidentConfig.Impact (Config.DefaultIncident config);
     IncidentParam.ShortDescription := shortDescriptionBuilder;
     IncidentParam.GroupKey := getGroupKey data;
     IncidentParam.Urgency :=
       DefaultIncidentConfig.Urgency (Config.DefaultIncident config) |}.

(** The package variable [serviceNow], a tracker with states [G]. *)
Context {G : Type}.
Variable serviceNow : ServiceNow G.

(** [func manageIncidents(data template.Data) error].  The logging calls
    reach neither the tracker nor the result and are left out.  The [err]
    that [GetIncidents] returns is not read before [CreateIncident] or
    [UpdateIncident] overwrites it: the branch is taken on
    [len(incidents)] alone. *)
Definition manageIncidents (data : Data.t) : M G (option error) :=
  let groupKey := getGroupKey data in
  let getParams :=
    [(ServiceNowConfig.IncidentGroupKeyField (Config.ServiceNow config),
      groupKey)] in
  '(incidents, err) <-
    invoke (CallGet getParams) (GetIncidents serviceNow getParams) ;;
  match incidents with
  | [] =>
      let incident := dataToIncidentParam data in
      '(_, err) <-
        invoke (CallCreate incident) (CreateIncident serviceNow incident) ;;
      match err with
      | Some e => ret (Some e)
      | None => ret None
      end
  | existingIncident :: _ =>
      let incident := dataToIncidentParam data in
      '(_, err) <-
        invoke (CallUpdate incident (Incident.GetSysID existingIncident))
          (UpdateIncident serviceNow incident
             (Incident.GetSysID existingIncident)) ;;
      match err with
      | Some e => ret (Some e)
      | None => ret None
      end
  end.

(** Running a request against a tracker in state [g] that has received no
    call yet: the result and the calls issued. *)
Definition run (data : Data.t) (g : G) : option error * list Call :=
  let '(r, w) := manageIncidents data (mkWorld g []) in (r, calls w).

End Main.

(** ** package http *)

Module http.

Definition StatusOK : Z := 200.
Definition StatusBadRequest : Z := 400.
Definition StatusInternalServerError : Z := 500.

(** What a handler does to its [http.ResponseWriter]. *)
Inductive Output :=
| WriteHeader (status : Z)
| Write (bytes : string).

(** An [http.ResponseWriter], represented by what has been done to it,
    oldest first. *)
Definition ResponseWriter := list Output.

(** The part of a [*http.Request] the handler reads: its body. *)
Record Request := mkRequest { Body : string }.

End http.

(** ** main.go: the handler *)

Module JSONResponse.
(** [type JSONResponse struct] *)
Record t := mk { Status : Z; Message : string }.
End JSONResponse.

Section Webhook.

Variable config : Config.t.
Context {G : Type}.
Variable serviceNow : ServiceNow G.

(** [json.NewDecoder(r.Body).Decode(&data)] on a zero [template.Data]: the
    data as far as the decoder filled it, and the decoder's error. *)
Variable Decode : string -> Data.t * option error.

(** [json.Marshal] on a [JSONResponse]; the code drops its error. *)
Variable Marshal : JSONResponse.t -> string.

(** [func readRequestBody(r *http.Request) (template.Data, error)].  The
    deferred [r.Body.Close()] has no part in the result. *)
Definition readRequestBody (r : http.Request) : Data.t * option error :=
  let data_err := Decode (http.Body r) in
  data_err.

(** [func sendJSONResponse(w http.ResponseWriter, status int, message
    string)].  An error of [w.Write] is logged and nothing else. *)
Definition sendJSONResponse (w : http.ResponseWriter) (status : Z)
  (message : string) : http.ResponseWriter :=
  let data := JSONResponse.mk status message in
  let bytes := Marshal data in
  (w ++ [http.WriteHeader status; http.Write bytes])%list.

(** [func webhook(w http.ResponseWriter, r *http.Request)]; [err.Error()]
    is the message that represents the error. *)
Definition webhook (w : http.ResponseWriter) (r : http.Request)
  : M G http.ResponseWriter :=
  let '(data, err) := readRequestBody r in
  match err with
  | Some e => ret (sendJSONResponse w http.StatusBadRequest e)
  | None =>
      err <- manageIncidents config serviceNow data ;;
      match err with
      | Some e => ret (sendJSONResponse w http.StatusInternalServerError e)
      | None => ret (sendJSONResponse w http.StatusOK "Success")
      end
  end.

(** Serving one request with a fresh response writer against a tracker in
    state [g]: what was written, the calls issued, the tracker's state
    afterwards. *)
Definition serve (r : http.Request) (g : G)
  : http.ResponseWriter * list Call * G :=
  let '(out, w) := webhook [] r (mkWorld g []) in (out, calls w, tracker w).

End Webhook.

(** Two deliveries, one after the other, to one tracker: the two results
    and all the calls issued. *)
Definition deliverTwice {G} (config : Config.t) (serviceNow : ServiceNow G)
  (d d' : Data.t) (g : G) : (option error * option error) * list Call :=
  let '(r, w) :=
    (r1 <- manageIncidents config serviceNow d ;;
     r2 <- manageIncidents config serviceNow d' ;;
     ret (r1, r2)) (mkWorld g []) in
  (r, calls w).

(** * Vocabulary of the properties *)

(** Increasing order on strings. *)
Definition le_string (s t : string) : Prop := (s <=? t)%string = true.

(** ** The order of [SortedPairs] *)

Definition isAlertName (k : string) : bool := (k =? AlertNameLabel)%string.

Definition notAlertName (k : string) : bool := negb (isAlertName k).

(** [Pair{k, kv[k]}] *)
Definition pairOf (kv : KV) (k : string) : Pair := mkPair k (get kv k).

(** The names of a map in the order [SortedPairs] lists them: [alertname]
    first when it is one of the names, then the others in increasing order. *)
Definition alertnameFirstKeys (ks : list string) : list string :=
  ((if existsb isAlertName ks then [AlertNameLabel] else [])
   ++ sort.Strings (filter notAlertName ks))%list.

Definition alertnameFirst (kv : KV) : Pairs :=
  map (pairOf kv) (alertnameFirstKeys (keys kv)).

(** The spec's reading of [SortedPairs]: the pairs of a map sorted by name,
    increasing. *)
Definition pairsByName (kv : KV) : Pairs :=
  map (pairOf kv) (sort.Strings (keys kv)).

(** ** The texts [dataToIncidentParam] builds *)

(** ["name: value"] *)
Definition labelText (p : Pair) : string := Name p ++ ": " ++ Value p.

(** A line ["\n- name: value"] of an alert's block. *)
Definition lineText (p : Pair) : string := LF ++ "- " ++ labelText p.

(** The texts of a list, one after the other. *)
Definition joined (l : list string) : string := String.concat "" l.

(** The block of one alert as the code writes it: the label lines, then the
    annotation lines, each group with [alertname] first and the other names
    in increasing order. *)
Definition alertBlock (alert : Alert.t) : string :=
  ("[" ++ Alert.Status alert ++ "] " ++ time.String (Alert.StartsAt alert))
  ++ joined (map lineText (alertnameFirst (Alert.Labels alert)))
  ++ joined (map lineText (alertnameFirst (Alert.Annotations alert))).

(** ** The calls of a run *)

(** The parameters of the lookup: the configured field set to the group
    key. *)
Definition getParamsOf (config : Config.t) (data : Data.t)
  : list (string * string) :=
  [(ServiceNowConfig.IncidentGroupKeyField (Config.ServiceNow config),
    getGroupKey data)].

(** A tracker none of whose writes fails. *)
Definition writesSucceed {G} (serviceNow : ServiceNow G) : Prop :=
  (forall p g, snd (fst (CreateIncident serviceNow p g)) = None)
  /\ (forall p id g, snd (fst (UpdateIncident serviceNow p id g)) = None).

(** ** The spec's renderings, for comparison with the code *)

(** The group key as the spec words it: the ["name: value"] pairs of the
    group labels sorted by name, joined by [", "]. *)
Definition specGroupKey (data : Data.t) : string :=
  String.concat ", " (map labelText (pairsByName (Data.GroupLabels data))).

(** The short description as the spec words it. *)
Definition specShortDescription (data : Data.t) : string :=
  "[" ++ Data.Status data ++ "] " ++ specGroupKey data.

(** The block of an alert as the spec words it: label lines, then annotation
    lines, each group sorted by name. *)
Definition specAlertText (alert : Alert.t) : string :=
  ("[" ++ Alert.Status alert ++ "] " ++ time.String (Alert.StartsAt alert))
  ++ joined (map lineText (pairsByName (Alert.Labels alert)))
  ++ joined (map lineText (pairsByName (Alert.Annotations alert))).

(** The comments as the spec words them: the header, then the blocks in the
    order received. *)
Definition specComments (data : Data.t) : string :=
  "Alerts list:"
  ++ joined (map (fun a => LF ++ LF ++ specAlertText a) (Data.Alerts data)).

(** ** Sample configuration, notifications and trackers *)

Module Sample.

Definition config : Config.t :=
  Config.mk
    (ServiceNowConfig.mk "dev12345" "webhook" "secret" "u_group_key")
    (DefaultIncidentConfig.mk "Monitoring" "2" "3").

Definition noon : time.Time := time.mkTime "2019-05-01 12:00:00 +0000 UTC".

Definition notification (status : string) (groupLabels : KV)
  (alerts : list Alert.t) : Data.t :=
  Data.mk "servicenow" status alerts groupLabels [] [] "http://alertmanager:9093".

(** The spec's example: groupLabels [{alertname: HighCPU, job: node}]. *)
Definition highCPU : Data.t :=
  notification "firing" [("alertname", "HighCPU"); ("job", "node")] [].

(** The same labels, visited in the other order. *)
Definition highCPU' : Data.t :=
  notification "firing" [("job", "node"); ("alertname", "HighCPU")] [].

(** A group with a label whose name sorts before [alertname]. *)
Definition byAccount : Data.t :=
  notification "firing" [("account", "prod"); ("alertname", "HighCPU")] [].

Definition noLabels : Data.t := notification "firing" [] [].

Definition alertA : Alert.t :=
  Alert.mk "firing" [("alertname", "HighCPU"); ("account", "prod")]
    [("summary", "cpu high")] noon noon "".

Definition alertB : Alert.t :=
  Alert.mk "resolved" [("alertname", "DiskFull")] [] noon noon "".

Definition twoAlerts : Data.t :=
  notification "firing" [("alertname", "HighCPU")] [alertA; alertB].

Definition T1 : Incident.t := Incident.mk "INC0001" "abc123".
Definition T2 : Incident.t := Incident.mk "INC0002" "def456".

(** A tracker that answers every lookup with [found] and [lookupErr] and
    every write with [writeErr]. *)
Definition scripted (found : list Incident.t) (lookupErr writeErr : option error)
  : ServiceNow unit :=
  {| GetIncidents := fun _ g => ((found, lookupErr), g);
     CreateIncident := fun _ g =>
       ((match writeErr with None => Some T1 | Some _ => None end, writeErr), g);
     UpdateIncident := fun _ _ g =>
       ((match writeErr with None => Some T1 | Some _ => None end, writeErr), g)
  |}.

End Sample.

(** ** Notifications that differ in the order of their maps only *)

(** Two alerts with the same status, start and label and annotation maps,
    the maps listed in any order.  [EndsAt] and [GeneratorURL] are free. *)
Definition sameAlert (a a' : Alert.t) : Prop :=
  Alert.Status a = Alert.Status a'
  /\ Alert.StartsAt a = Alert.StartsAt a'
  /\ Permutation (Alert.Labels a) (Alert.Labels a')
  /\ Permutation (Alert.Annotations a) (Alert.Annotations a').

Definition wfAlert (a : Alert.t) : Prop :=
  wf (Alert.Labels a) /\ wf (Alert.Annotations a).

(** Two notifications with the same receiver, status, URL and group labels
    and the same alerts in the same order, every map listed in any order.
    [CommonLabels] and [CommonAnnotations] are free. *)
Definition sameNotification (d d' : Data.t) : Prop :=
  Data.Receiver d = Data.Receiver d'
  /\ Data.Status d = Data.Status d'
  /\ Data.ExternalURL d = Data.ExternalURL d'
  /\ Permutation (Data.GroupLabels d) (Data.GroupLabels d')
  /\ Forall2 sameAlert (Data.Alerts d) (Data.Alerts d').

(** ** Labels whose print can be read back *)

(** [c] is one of the bytes of [s]. *)
Fixpoint hasByte (c : ascii) (s : string) : bool :=
  match s with
  | EmptyString => false
  | String a r => Ascii.eqb a c || hasByte c r
  end.

(** A label whose name holds no space and whose value holds no closing
    brace. *)
Definition plainLabel (e : string * string) : bool :=
  negb (hasByte " " (fst e)) && negb (hasByte "}" (snd e)).

Definition plainLabels (kv : KV) : bool := forallb plainLabel kv.

(** A pair as an entry of a map. *)
Definition entryOf (p : Pair) : string * string := (Name p, Value p).

(** The print of some pairs after the opening bracket. *)
Definition afterBracket (ps : Pairs) : string :=
  String.concat " " (map fmt.Sprint_Pair ps) ++ "]".

(** What follows the print of a pair: the closing bracket, or a space and
    the next pairs. *)
Definition afterPair (ps : Pairs) : string :=
  match ps with
  | [] => "]"
  | _ :: _ => " " ++ afterBracket ps
  end.

(** ** The answer of the handler *)

(** What [sendJSONResponse] does to a fresh writer. *)
Definition answer (Marshal : JSONResponse.t -> string) (status : Z)
  (message : string) : http.ResponseWriter :=
  [http.WriteHeader status;
   http.Write (Marshal (JSONResponse.mk status message))].

(** ** A tracker that remembers *)

Module Memory.

(** The tickets stored, each under the value of its group-key field. *)
Definition Store := list (string * Incident.t).

Definition matches (params : list (string * string)) (row : string * Incident.t)
  : bool :=
  existsb (fun param => (snd param =? fst row)%string) params.

(** Lookup answers with the tickets stored under the value asked for;
    create stores a ticket under the group key of the incident; update
    leaves the store as it is. *)
Definition tracker : ServiceNow Store :=
  {| GetIncidents := fun params g =>
       ((map snd (filter (matches params) g), None), g);
     CreateIncident := fun p g =>
       let t := Incident.mk "INC0100" ("id:" ++ IncidentParam.GroupKey p) in
       ((Some t, None), (g ++ [(IncidentParam.GroupKey p, t)])%list);
     UpdateIncident := fun p id g =>
       ((Some (Incident.mk "INC0100" id), None), g) |}.

(** A request body and the decoder of the sample requests: the body
    ["ok"] decodes to the spec's example, any other is rejected. *)
Definition Decode (body : string) : Data.t * option error :=
  if (body =? "ok")%string then (Sample.highCPU, None)
  else (Data.mk "" "" [] [] [] [] "", Some "unexpected end of JSON input").

(** A stand-in for [json.Marshal]. *)
Definition Marshal (r : JSONResponse.t) : string := JSONResponse.Message r.

End Memory.

(** The names of a concrete map are distinct. *)
Ltac distinct_names :=
  unfold wf, keys; simpl; repeat constructor; simpl; intuition discriminate.

(** * Properties *)

(** ** Strings *)

Section StringFacts.

Lemma append_nil_r (s : string) : s ++ "" = s.
Proof. induction s as [|c s IH]; simpl; [reflexivity | now rewrite IH]. Qed.

Lemma append_assoc (s t u : string) : (s ++ t) ++ u = s ++ (t ++ u).
Proof. induction s as [|c s IH]; simpl; [reflexivity | now rewrite IH]. Qed.

Lemma len_append (s t : string) : len (s ++ t) = len s + len t.
Proof. unfold len. induction s as [|c s IH]; simpl; [reflexivity | now rewrite IH]. Qed.

Lemma ascii_compare_refl (a : ascii) : Ascii.compare a a = Eq.
Proof. unfold Ascii.compare. apply N.compare_refl. Qed.

(** Byte-wise comparison is transitive. *)
Lemma compare_lt_trans (s t u : string) :
  String.compare s t = Lt -> String.compare t u = Lt -> String.compare s u = Lt.
Proof.
  revert t u. induction s as [|a s IH]; intros [|b t] [|c u]; simpl; try easy.
  unfold Ascii.compare.
  destruct (N.compare_spec (N_of_ascii a) (N_of_ascii b)) as [Hab|Hab|Hab];
    try discriminate;
    destruct (N.compare_spec (N_of_ascii b) (N_of_ascii c)) as [Hbc|Hbc|Hbc];
    try discriminate; intros H1 H2.
  - rewrite Hab, Hbc, N.compare_refl. eauto.
  - rewrite Hab. apply N.compare_lt_iff in Hbc. now rewrite Hbc.
  - rewrite <- Hbc. apply N.compare_lt_iff in Hab. now rewrite Hab.
  - assert (Hac : (N_of_ascii a < N_of_ascii c)%N) by lia.
    apply N.compare_lt_iff in Hac. now rewrite Hac.
Qed.

Lemma leb_refl (s : string) : (s <=? s)%string = true.
Proof.
  unfold String.leb.
  assert (H : String.compare s s = Eq).
  { induction s as [|a s IH]; simpl; [reflexivity|].
    now rewrite ascii_compare_refl. }
  now rewrite H.
Qed.

Lemma leb_trans (s t u : string) :
  (s <=? t)%string = true -> (t <=? u)%string = true -> (s <=? u)%string = true.
Proof.
  unfold String.leb.
  destruct (String.compare s t) eqn:Hst; try discriminate;
    destruct (String.compare t u) eqn:Htu; try discriminate; intros _ _.
  - apply String.compare_eq_iff in Hst, Htu. subst.
    fold (String.leb u u). now rewrite leb_refl.
  - apply String.compare_eq_iff in Hst. subst. now rewrite Htu.
  - apply String.compare_eq_iff in Htu. subst. now rewrite Hst.
  - now rewrite (compare_lt_trans _ _ _ Hst Htu).
Qed.

Lemma leb_false_flip (s t : string) :
  (s <=? t)%string = false -> (t <=? s)%string = true.
Proof.
  intros H. destruct (String.leb_total s t) as [H'|H']; congruence.
Qed.

End StringFacts.

(** ** sort.Strings sorts *)

Section SortFacts.

Lemma insert_perm (k : string) (l : list string) :
  Permutation (sort.insert k l) (k :: l).
Proof.
  induction l as [|x r IH]; simpl; [reflexivity|].
  destruct (k <=? x)%string; [reflexivity|].
  rewrite IH. apply perm_swap.
Qed.

(** The result holds the same strings as the argument. *)
Lemma Strings_perm (l : list string) : Permutation (sort.Strings l) l.
Proof.
  induction l as [|k r IH]; simpl; [reflexivity|].
  now rewrite insert_perm, IH.
Qed.

Lemma insert_sorted (k : string) (l : list string) :
  StronglySorted le_string l -> StronglySorted le_string (sort.insert k l).
Proof.
  induction 1 as [|x r Hr IH Hx]; simpl.
  - repeat constructor.
  - destruct (k <=? x)%string eqn:Hk.
    + constructor; [now constructor|].
      constructor; [exact Hk|].
      eapply Forall_impl; [|exact Hx].
      intros y Hy. exact (leb_trans _ _ _ Hk Hy).
    + constructor; [exact IH|].
      eapply Permutation_Forall; [symmetry; apply insert_perm|].
      constructor; [now apply leb_false_flip | exact Hx].
Qed.

(** The result is in increasing order. *)
Lemma Strings_sorted (l : list string) :
  StronglySorted le_string (sort.Strings l).
Proof.
  induction l as [|k r IH]; simpl; [constructor | now apply insert_sorted].
Qed.

(** An increasing list is determined by the strings it holds. *)
Lemma sorted_perm_eq (l l' : list string) :
  StronglySorted le_string l -> StronglySorted le_string l' ->
  Permutation l l' -> l = l'.
Proof.
  intros Hl. revert l'. induction Hl as [|x r Hr IH Hx]; intros l' Hl' HP.
  - now apply Permutation_nil in HP.
  - destruct Hl' as [|y r' Hr' Hy].
    + symmetry in HP. now apply Permutation_nil in HP.
    + assert (Hxy : x = y).
      { assert (Hin1 : In x (y :: r')) by (eapply Permutation_in; [exact HP | now left]).
        assert (Hin2 : In y (x :: r)) by (eapply Permutation_in; [symmetry; exact HP | now left]).
        destruct Hin1 as [->|Hin1]; [reflexivity|].
        destruct Hin2 as [->|Hin2]; [reflexivity|].
        rewrite Forall_forall in Hx, Hy.
        apply String.leb_antisym; [now apply Hx | now apply Hy]. }
      subst y. f_equal. apply IH; [exact Hr'|].
      now apply Permutation_cons_inv in HP.
Qed.

(** [sort.Strings] does not depend on the order of its argument. *)
Lemma Strings_order_irrelevant (l l' : list string) :
  Permutation l l' -> sort.Strings l = sort.Strings l'.
Proof.
  intros HP. apply sorted_perm_eq; try apply Strings_sorted.
  now rewrite !Strings_perm.
Qed.

End SortFacts.

(** ** template.KV.SortedPairs *)

Section SortedPairsFacts.

(** What the first loop of [SortedPairs] leaves in [keys] and [sortStart]. *)
Lemma collect_spec (ks acc : list string) (s : nat) :
  collect ks acc s =
  ((rev (filter isAlertName ks) ++ acc ++ filter notAlertName ks)%list,
   if existsb isAlertName ks then 1 else s).
Proof.
  revert acc s. induction ks as [|k r IH]; intros acc s.
  - simpl. now rewrite app_nil_r.
  - change (collect (k :: r) acc s)
      with (if isAlertName k then collect r (k :: acc) 1
            else collect r (acc ++ [k])%list s).
    cbn [filter existsb]. unfold notAlertName at 1.
    destruct (isAlertName k); cbn [negb orb rev]; rewrite IH.
    + f_equal; [|now destruct (existsb isAlertName r)].
      now rewrite <- !app_assoc.
    + now rewrite <- !app_assoc.
Qed.

(** In a list without repetition [alertname] occurs once at most. *)
Lemma filter_isAlertName (ks : list string) :
  NoDup ks ->
  filter isAlertName ks =
  if existsb isAlertName ks then [AlertNameLabel] else [].
Proof.
  induction 1 as [|k r Hk Hr IH]; [reflexivity|].
  cbn [filter existsb].
  destruct (isAlertName k) eqn:Ha; cbn [orb]; [|exact IH].
  apply String.eqb_eq in Ha. subst k. rewrite IH.
  destruct (existsb isAlertName r) eqn:He; [|reflexivity].
  apply existsb_exists in He as (x & Hx & Hxa).
  apply String.eqb_eq in Hxa. subst x. contradiction.
Qed.

(** The keys [SortedPairs] walks in its second loop. *)
Lemma sortedKeys_spec (ks : list string) :
  NoDup ks ->
  (let '(ks0, sortStart) := collect ks [] 0 in
   firstn sortStart ks0 ++ sort.Strings (skipn sortStart ks0))%list
  = alertnameFirstKeys ks.
Proof.
  intros Hnd. rewrite collect_spec, (filter_isAlertName ks Hnd).
  unfold alertnameFirstKeys.
  destruct (existsb isAlertName ks) eqn:He; simpl; [reflexivity|].
  reflexivity.
Qed.

(** [SortedPairs] of a map: the pair of [alertname] first when present, then
    the pairs of the other names in increasing order of name. *)
Lemma SortedPairs_spec (kv : KV) : wf kv -> SortedPairs kv = alertnameFirst kv.
Proof.
  intros Hwf. unfold SortedPairs, alertnameFirst.
  rewrite <- (sortedKeys_spec (keys kv) Hwf).
  now destruct (collect (keys kv) [] 0).
Qed.

(** [SortedPairs] lists every name of the map, once each. *)
Lemma alertnameFirstKeys_perm (ks : list string) :
  NoDup ks -> Permutation (alertnameFirstKeys ks) ks.
Proof.
  intros Hnd. unfold alertnameFirstKeys.
  rewrite Strings_perm, <- (filter_isAlertName ks Hnd).
  clear Hnd. induction ks as [|k r IH]; [reflexivity|].
  cbn [filter]. unfold notAlertName at 1.
  destruct (isAlertName k); cbn [negb app].
  - now rewrite IH.
  - rewrite <- Permutation_middle. now rewrite IH.
Qed.

(** Where [alertname] is absent, or no other name sorts before it, the
    pairs are sorted by name. *)
Lemma alertnameFirst_byName (kv : KV) :
  (forall k, In k (keys kv) -> le_string AlertNameLabel k) ->
  wf kv -> alertnameFirst kv = pairsByName kv.
Proof.
  intros Hmin Hwf. unfold alertnameFirst, pairsByName. f_equal.
  apply sorted_perm_eq.
  - unfold alertnameFirstKeys.
    destruct (existsb isAlertName (keys kv)); simpl; [|apply Strings_sorted].
    constructor; [apply Strings_sorted|].
    eapply Permutation_Forall; [symmetry; apply Strings_perm|].
    apply Forall_forall. intros k Hk. apply filter_In in Hk as [Hk _].
    now apply Hmin.
  - apply Strings_sorted.
  - now rewrite alertnameFirstKeys_perm, Strings_perm.
Qed.

End SortedPairsFacts.

(** ** The order in which [range] visits a map does not matter *)

Section OrderIrrelevance.

Lemma get_In (kv : KV) (k v : string) :
  wf kv -> In (k, v) kv -> get kv k = v.
Proof.
  unfold wf, keys. induction kv as [|[k' v'] r IH]; simpl; [easy|].
  intros Hnd [Heq|Hin]; inversion Hnd as [|? ? Hk' Hr]; subst.
  - inversion Heq; subst. now rewrite String.eqb_refl.
  - destruct (String.eqb_spec k' k) as [->|Hne]; [|now apply IH].
    exfalso. apply Hk'. change k with (fst (k, v)). now apply in_map.
Qed.

Lemma get_absent (kv : KV) (k : string) :
  ~ In k (keys kv) -> get kv k = "".
Proof.
  unfold keys. induction kv as [|[k' v'] r IH]; simpl; [easy|].
  intros Hk. destruct (String.eqb_spec k' k) as [->|Hne]; [tauto|].
  apply IH. tauto.
Qed.

Lemma wf_perm (kv kv' : KV) : Permutation kv kv' -> wf kv -> wf kv'.
Proof.
  unfold wf, keys. intros HP. apply Permutation_NoDup.
  now apply Permutation_map.
Qed.

(** Two listings of one map store the same value under every name. *)
Lemma get_order_irrelevant (kv kv' : KV) (k : string) :
  wf kv -> Permutation kv kv' -> get kv k = get kv' k.
Proof.
  intros Hwf HP.
  destruct (in_dec string_dec k (keys kv)) as [Hin|Hout].
  - unfold keys in Hin. apply in_map_iff in Hin as ([k' v] & Hk & Hin).
    simpl in Hk. subst k'.
    rewrite (get_In kv k v Hwf Hin).
    symmetry. apply get_In; [now apply (wf_perm kv) |].
    now apply (Permutation_in _ HP).
  - rewrite (get_absent kv k Hout). symmetry. apply get_absent.
    intros Hin. apply Hout.
    eapply Permutation_in; [|exact Hin].
    apply Permutation_map. now symmetry.
Qed.

Lemma filter_perm (f : string -> bool) (l l' : list string) :
  Permutation l l' -> Permutation (filter f l) (filter f l').
Proof.
  induction 1 as [|x l l' HP IH|x y l|l l' l'' HP1 IH1 HP2 IH2]; simpl.
  - reflexivity.
  - destruct (f x); [now constructor | exact IH].
  - destruct (f x), (f y); try reflexivity. apply perm_swap.
  - now transitivity (filter f l').
Qed.

Lemma existsb_perm (f : string -> bool) (l l' : list string) :
  Permutation l l' -> existsb f l = existsb f l'.
Proof.
  induction 1 as [|x l l' HP IH|x y l|l l' l'' HP1 IH1 HP2 IH2]; simpl.
  - reflexivity.
  - now rewrite IH.
  - now destruct (f x), (f y).
  - congruence.
Qed.

Lemma alertnameFirstKeys_order_irrelevant (ks ks' : list string) :
  Permutation ks ks' -> alertnameFirstKeys ks = alertnameFirstKeys ks'.
Proof.
  intros HP. unfold alertnameFirstKeys.
  rewrite (existsb_perm _ _ _ HP). f_equal.
  apply Strings_order_irrelevant. now apply filter_perm.
Qed.

(** [SortedPairs] yields the same pairs whatever the order in which the
    entries of the map come. *)
Lemma SortedPairs_order_irrelevant (kv kv' : KV) :
  wf kv -> Permutation kv kv' -> SortedPairs kv = SortedPairs kv'.
Proof.
  intros Hwf HP.
  rewrite (SortedPairs_spec kv Hwf).
  rewrite (SortedPairs_spec kv' (wf_perm _ _ HP Hwf)).
  unfold alertnameFirst.
  rewrite (alertnameFirstKeys_order_irrelevant (keys kv) (keys kv'))
    by (now apply Permutation_map).
  apply map_ext. intros k. unfold pairOf. f_equal.
  now apply get_order_irrelevant.
Qed.

End OrderIrrelevance.

(** ** The builders of [dataToIncidentParam] *)

Section BuilderFacts.

Lemma joined_cons (x : string) (l : list string) :
  joined (x :: l) = x ++ joined l.
Proof.
  unfold joined. destruct l as [|y r]; simpl; [now rewrite append_nil_r|].
  reflexivity.
Qed.

Lemma concat_cons (sep x : string) (l : list string) :
  String.concat sep (x :: l) = x ++ joined (map (fun y => sep ++ y) l).
Proof.
  revert x. induction l as [|y r IH]; intros x.
  - simpl. now rewrite append_nil_r.
  - change (String.concat sep (x :: y :: r))
      with (x ++ sep ++ String.concat sep (y :: r)).
    rewrite IH. cbn [map]. rewrite joined_cons. now rewrite append_assoc.
Qed.

(** A builder that is not empty receives [", "] before each label. *)
Lemma groupKeyBuilder_nonempty (ps : Pairs) (b : string) :
  (0 < len b)%nat ->
  fold_left writeGroupLabel ps b
  = b ++ joined (map (fun p => ", " ++ labelText p) ps).
Proof.
  revert b. induction ps as [|p r IH]; intros b Hb.
  - simpl. now rewrite append_nil_r.
  - cbn [fold_left map]. rewrite joined_cons.
    unfold writeGroupLabel at 2.
    apply Nat.ltb_lt in Hb as Hb'. rewrite Hb'.
    rewrite IH.
    + fold (labelText p). now rewrite !append_assoc.
    + rewrite !len_append. lia.
Qed.

(** The content of [groupKeyBuilder] after its loop: the labels rendered
    ["name: value"] and joined by [", "]. *)
Lemma groupKeyBuilder_spec (ps : Pairs) :
  fold_left writeGroupLabel ps "" = String.concat ", " (map labelText ps).
Proof.
  destruct ps as [|p r]; [reflexivity|].
  cbn [fold_left map]. rewrite concat_cons, map_map.
  unfold writeGroupLabel at 2. cbn [len String.length Nat.ltb Nat.leb].
  fold (labelText p). change ("" ++ labelText p) with (labelText p).
  apply groupKeyBuilder_nonempty.
  unfold labelText. rewrite !len_append. simpl. lia.
Qed.

Lemma alertLines_spec (ps : Pairs) (b : string) :
  fold_left writeAlertLine ps b = b ++ joined (map lineText ps).
Proof.
  revert b. induction ps as [|p r IH]; intros b.
  - simpl. now rewrite append_nil_r.
  - cbn [fold_left map]. rewrite joined_cons, IH.
    unfold writeAlertLine, lineText, labelText. now rewrite !append_assoc.
Qed.

(** The block of one alert: its head line, its label lines, its annotation
    lines. *)
Lemma alertText_spec (alert : Alert.t) :
  alertText alert =
  ("[" ++ Alert.Status alert ++ "] " ++ time.String (Alert.StartsAt alert))
  ++ joined (map lineText (SortedPairs (Alert.Labels alert)))
  ++ joined (map lineText (SortedPairs (Alert.Annotations alert))).
Proof.
  unfold alertText. rewrite !alertLines_spec. now rewrite !append_assoc.
Qed.

(** The content of [commentBuilder] after its loop: the blocks in the order
    of [alerts], each after an empty line. *)
Lemma commentBuilder_spec (alerts : list Alert.t) (b : string) :
  fold_left writeAlert alerts b
  = b ++ joined (map (fun a => LF ++ LF ++ alertText a) alerts).
Proof.
  revert b. induction alerts as [|a r IH]; intros b.
  - simpl. now rewrite append_nil_r.
  - cbn [fold_left map]. rewrite joined_cons, IH.
    unfold writeAlert. now rewrite !append_assoc.
Qed.

End BuilderFacts.

(** ** The reconciliation *)

Section EngineFacts.

Context {G : Type}.
Variable config : Config.t.
Variable serviceNow : ServiceNow G.

(** No incident found: one lookup, one create; the result is the error of
    the create.  The error of the lookup plays no part. *)
Lemma run_no_incident (data : Data.t) (g g' : G) (err : option error) :
  GetIncidents serviceNow (getParamsOf config data) g = (([], err), g') ->
  run config serviceNow data g =
  (snd (fst (CreateIncident serviceNow (dataToIncidentParam config data) g')),
   [CallGet (getParamsOf config data);
    CallCreate (dataToIncidentParam config data)]).
Proof.
  intros Hget. unfold run, manageIncidents, bind, invoke. simpl.
  fold (getParamsOf config data). rewrite Hget. simpl.
  destruct (CreateIncident serviceNow (dataToIncidentParam config data) g')
    as [[created [e|]] g'']; reflexivity.
Qed.

(** Incidents found: one lookup, one update of the first; the result is the
    error of the update. *)
Lemma run_existing (data : Data.t) (g g' : G) (first : Incident.t)
  (others : list Incident.t) (err : option error) :
  GetIncidents serviceNow (getParamsOf config data) g
  = ((first :: others, err), g') ->
  run config serviceNow data g =
  (snd (fst (UpdateIncident serviceNow (dataToIncidentParam config data)
               (Incident.GetSysID first) g')),
   [CallGet (getParamsOf config data);
    CallUpdate (dataToIncidentParam config data) (Incident.GetSysID first)]).
Proof.
  intros Hget. unfold run, manageIncidents, bind, invoke. simpl.
  fold (getParamsOf config data). rewrite Hget. simpl.
  unfold Incident.GetSysID.
  destruct (UpdateIncident serviceNow (dataToIncidentParam config data)
              (Incident.sysID first) g')
    as [[updated [e|]] g'']; reflexivity.
Qed.

End EngineFacts.

(** ** The claims of the specification *)

(** C1 (the code departs from the claim).  When the lookup returns an error
    and no incident, [manageIncidents] does not stop: it issues a create call
    with the built incident, and its result is the result of that create, a
    success when the create succeeds. *)
Theorem lookup_error_still_creates {G} (config : Config.t)
  (serviceNow : ServiceNow G) (data : Data.t) (g g' : G) (e : error) :
  GetIncidents serviceNow (getParamsOf config data) g = (([], Some e), g') ->
  snd (fst (CreateIncident serviceNow (dataToIncidentParam config data) g'))
  = None ->
  run config serviceNow data g =
  (None, [CallGet (getParamsOf config data);
          CallCreate (dataToIncidentParam config data)]).
Proof.
  intros Hget Hcreate. rewrite (run_no_incident _ _ _ _ _ _ Hget).
  now rewrite Hcreate.
Qed.

Lemma lookup_error_still_creates_witness :
  run Sample.config (Sample.scripted [] (Some "lookup failed") None)
    Sample.highCPU tt
  = (None,
     [CallGet [("u_group_key", "[{alertname HighCPU} {job node}]")];
      CallCreate (dataToIncidentParam Sample.config Sample.highCPU)]).
Proof.
  apply (lookup_error_still_creates Sample.config
           (Sample.scripted [] (Some "lookup failed") None)
           Sample.highCPU tt tt "lookup failed");
    reflexivity.
Defined.

(** C2, as stated, fails on the spec's own example: for groupLabels
    [{alertname: HighCPU, job: node}] the group key of the built incident is
    the default print of the pairs, not the comma-joined rendering. *)
Lemma groupKey_is_not_comma_joined :
  IncidentParam.GroupKey (dataToIncidentParam Sample.config Sample.highCPU)
  = "[{alertname HighCPU} {job node}]"
  /\ specGroupKey Sample.highCPU = "alertname: HighCPU, job: node"
  /\ IncidentParam.GroupKey (dataToIncidentParam Sample.config Sample.highCPU)
     <> specGroupKey Sample.highCPU.
Proof.
  split; [reflexivity|]. split; [reflexivity|].
  vm_compute. discriminate.
Qed.

(** C2, amended.  The group key of the built incident is the text ["["],
    the pairs of the group labels each printed as ["{name value}"] and
    separated by one space, ["]"]; the pairs come with [alertname] first
    when present and the other names in increasing order. *)
Theorem groupKey_default_print (config : Config.t) (data : Data.t) :
  wf (Data.GroupLabels data) ->
  IncidentParam.GroupKey (dataToIncidentParam config data)
  = "[" ++ String.concat " "
             (map (fun p => "{" ++ Name p ++ " " ++ Value p ++ "}")
                (alertnameFirst (Data.GroupLabels data)))
    ++ "]".
Proof.
  intros Hwf. cbn [dataToIncidentParam IncidentParam.GroupKey].
  unfold getGroupKey, fmt.Sprint_Pairs.
  now rewrite (SortedPairs_spec _ Hwf).
Qed.

Lemma groupKey_default_print_witness :
  IncidentParam.GroupKey (dataToIncidentParam Sample.config Sample.highCPU')
  = "[{alertname HighCPU} {job node}]".
Proof.
  apply (groupKey_default_print Sample.config Sample.highCPU').
  distinct_names.
Defined.

(** C3.  The group key does not depend on the order in which the group
    labels come: two notifications whose group labels are permutations of
    the same name-value pairs have the same key.  With [d' = d] this is the
    key computed twice from one input. *)
Theorem getGroupKey_order_invariant (d d' : Data.t) :
  wf (Data.GroupLabels d) ->
  Permutation (Data.GroupLabels d) (Data.GroupLabels d') ->
  getGroupKey d = getGroupKey d'.
Proof.
  intros Hwf HP. unfold getGroupKey.
  now rewrite (SortedPairs_order_irrelevant _ _ Hwf HP).
Qed.

Lemma getGroupKey_order_invariant_witness :
  getGroupKey Sample.highCPU = getGroupKey Sample.highCPU'.
Proof.
  apply (getGroupKey_order_invariant Sample.highCPU Sample.highCPU').
  - distinct_names.
  - simpl. apply perm_swap.
Defined.

(** C4.  When the lookup returns one or more incidents, the calls of the
    reconciliation are the lookup and one update addressed to the sysID of
    the first incident returned: no create, no other update. *)
Theorem update_targets_first_incident {G} (config : Config.t)
  (serviceNow : ServiceNow G) (data : Data.t) (g g' : G)
  (first : Incident.t) (others : list Incident.t) (err : option error) :
  GetIncidents serviceNow (getParamsOf config data) g
  = ((first :: others, err), g') ->
  snd (run config serviceNow data g) =
  [CallGet (getParamsOf config data);
   CallUpdate (dataToIncidentParam config data) (Incident.GetSysID first)].
Proof.
  intros Hget. now rewrite (run_existing _ _ _ _ _ _ _ _ Hget).
Qed.

Lemma update_targets_first_incident_witness :
  snd (run Sample.config (Sample.scripted [Sample.T1; Sample.T2] None None)
         Sample.highCPU tt)
  = [CallGet (getParamsOf Sample.config Sample.highCPU);
     CallUpdate (dataToIncidentParam Sample.config Sample.highCPU) "abc123"].
Proof.
  apply (update_targets_first_incident Sample.config
           (Sample.scripted [Sample.T1; Sample.T2] None None)
           Sample.highCPU tt tt Sample.T1 [Sample.T2] None).
  reflexivity.
Defined.

(** C5, as stated, fails for a firing group with the labels
    [{account: prod, alertname: HighCPU}] and no incident found: the one
    create call carries a short description that starts with the
    [alertname] pair, where sorting by name puts [account] first. *)
Lemma shortDescription_is_not_sorted_by_name :
  snd (run Sample.config (Sample.scripted [] None None) Sample.byAccount tt)
  = [CallGet (getParamsOf Sample.config Sample.byAccount);
     CallCreate (dataToIncidentParam Sample.config Sample.byAccount)]
  /\ IncidentParam.ShortDescription
       (dataToIncidentParam Sample.config Sample.byAccount)
     = "[firing] alertname: HighCPU, account: prod"
  /\ specShortDescription Sample.byAccount
     = "[firing] account: prod, alertname: HighCPU"
  /\ IncidentParam.ShortDescription
       (dataToIncidentParam Sample.config Sample.byAccount)
     <> specShortDescription Sample.byAccount.
Proof.
  repeat split; try reflexivity.
  vm_compute. discriminate.
Qed.

(** C5, amended.  For a firing notification, when the lookup succeeds and
    returns no incident, the calls of the reconciliation are the lookup and
    one create, no update; the short description of the created incident is
    ["[firing] "] followed by the ["name: value"] pairs of the group labels
    joined by [", "], the [alertname] pair first when present and the others
    in increasing order of name. *)
Theorem create_when_no_incident {G} (config : Config.t)
  (serviceNow : ServiceNow G) (data : Data.t) (g g' : G) :
  Data.Status data = "firing" ->
  wf (Data.GroupLabels data) ->
  GetIncidents serviceNow (getParamsOf config data) g = (([], None), g') ->
  snd (run config serviceNow data g)
  = [CallGet (getParamsOf config data);
     CallCreate (dataToIncidentParam config data)]
  /\ IncidentParam.ShortDescription (dataToIncidentParam config data)
     = "[firing] "
       ++ String.concat ", "
            (map labelText (alertnameFirst (Data.GroupLabels data))).
Proof.
  intros Hst Hwf Hget. split.
  - now rewrite (run_no_incident _ _ _ _ _ _ Hget).
  - cbn [dataToIncidentParam IncidentParam.ShortDescription].
    now rewrite Hst, groupKeyBuilder_spec, (SortedPairs_spec _ Hwf).
Qed.

Lemma create_when_no_incident_witness :
  snd (run Sample.config (Sample.scripted [] None None) Sample.highCPU' tt)
  = [CallGet (getParamsOf Sample.config Sample.highCPU');
     CallCreate (dataToIncidentParam Sample.config Sample.highCPU')]
  /\ IncidentParam.ShortDescription
       (dataToIncidentParam Sample.config Sample.highCPU')
     = "[firing] alertname: HighCPU, job: node".
Proof.
  apply (create_when_no_incident Sample.config
           (Sample.scripted [] None None) Sample.highCPU' tt tt).
  - reflexivity.
  - distinct_names.
  - reflexivity.
Defined.

(** C6, as stated, fails: with no group label the group key of the built
    incident is ["[]"], not the empty string. *)
Lemma groupKey_of_no_label_is_not_empty :
  IncidentParam.GroupKey (dataToIncidentParam Sample.config Sample.noLabels)
  = "[]"
  /\ IncidentParam.GroupKey (dataToIncidentParam Sample.config Sample.noLabels)
     <> "".
Proof. split; [reflexivity | vm_compute; discriminate]. Qed.

(** C6, amended.  For a notification without group labels the short
    description of the built incident is ["[" ++ status ++ "] "] and
    nothing more, its group key is ["[]"], and the notification is not
    rejected: when the lookup under that key succeeds and the tracker's
    writes succeed, the reconciliation succeeds. *)
Theorem no_group_label {G} (config : Config.t) (serviceNow : ServiceNow G)
  (data : Data.t) (g : G) :
  Data.GroupLabels data = [] ->
  IncidentParam.ShortDescription (dataToIncidentParam config data)
  = "[" ++ Data.Status data ++ "] "
  /\ IncidentParam.GroupKey (dataToIncidentParam config data) = "[]"
  /\ (forall found g',
        GetIncidents serviceNow
          [(ServiceNowConfig.IncidentGroupKeyField (Config.ServiceNow config),
            "[]")] g
        = ((found, None), g') ->
        writesSucceed serviceNow ->
        fst (run config serviceNow data g) = None).
Proof.
  intros Hgl.
  assert (Hkey : getGroupKey data = "[]")
    by (unfold getGroupKey; now rewrite Hgl).
  assert (Hpar : getParamsOf config data
                 = [(ServiceNowConfig.IncidentGroupKeyField
                       (Config.ServiceNow config), "[]")])
    by (unfold getParamsOf; now rewrite Hkey).
  split; [|split].
  - cbn [dataToIncidentParam IncidentParam.ShortDescription].
    rewrite Hgl. simpl. now rewrite append_nil_r.
  - exact Hkey.
  - intros found g' Hget [Hcreate Hupdate]. rewrite <- Hpar in Hget.
    destruct found as [|first others].
    + rewrite (run_no_incident _ _ _ _ _ _ Hget). apply Hcreate.
    + rewrite (run_existing _ _ _ _ _ _ _ _ Hget). apply Hupdate.
Qed.

Lemma no_group_label_witness :
  IncidentParam.ShortDescription
    (dataToIncidentParam Sample.config Sample.noLabels) = "[firing] "
  /\ IncidentParam.GroupKey
       (dataToIncidentParam Sample.config Sample.noLabels) = "[]"
  /\ fst (run Sample.config (Sample.scripted [] None None) Sample.noLabels tt)
     = None.
Proof.
  destruct (no_group_label Sample.config (Sample.scripted [] None None)
              Sample.noLabels tt eq_refl) as (Hsd & Hkey & Hok).
  split; [exact Hsd|]. split; [exact Hkey|].
  apply (Hok [] tt); [reflexivity|]. split; intros; reflexivity.
Defined.

(** C7, as stated, fails for the alerts [A, B] where A carries the labels
    [{alertname: HighCPU, account: prod}]: A's block lists [alertname]
    before [account], so the comments are not the blocks with their lines
    sorted by name. *)
Lemma comment_lines_are_not_sorted_by_name :
  IncidentParam.Comments (dataToIncidentParam Sample.config Sample.twoAlerts)
  = "Alerts list:" ++ LF ++ LF
    ++ "[firing] 2019-05-01 12:00:00 +0000 UTC"
    ++ LF ++ "- alertname: HighCPU"
    ++ LF ++ "- account: prod"
    ++ LF ++ "- summary: cpu high"
    ++ LF ++ LF
    ++ "[resolved] 2019-05-01 12:00:00 +0000 UTC"
    ++ LF ++ "- alertname: DiskFull"
  /\ IncidentParam.Comments (dataToIncidentParam Sample.config Sample.twoAlerts)
     <> specComments Sample.twoAlerts.
Proof. split; [reflexivity | vm_compute; discriminate]. Qed.

(** C7, amended.  For the alerts [A, B], in that order, the comments are the
    header, an empty line, A's block, an empty line, B's block: the alerts
    keep the order in which they came.  Inside a block the label lines come
    first, then the annotation lines; in each group the [alertname] line is
    first when present and the other lines are in increasing order of
    name. *)
Theorem comments_keep_alert_order (config : Config.t) (data : Data.t)
  (A B : Alert.t) :
  Data.Alerts data = [A; B] ->
  wf (Alert.Labels A) -> wf (Alert.Annotations A) ->
  wf (Alert.Labels B) -> wf (Alert.Annotations B) ->
  IncidentParam.Comments (dataToIncidentParam config data)
  = "Alerts list:" ++ LF ++ LF ++ alertBlock A ++ LF ++ LF ++ alertBlock B.
Proof.
  intros Halerts HlA HaA HlB HaB.
  cbn [dataToIncidentParam IncidentParam.Comments].
  rewrite Halerts, commentBuilder_spec. cbn [map].
  rewrite !joined_cons, !alertText_spec.
  rewrite !SortedPairs_spec by assumption.
  fold (alertBlock A). fold (alertBlock B).
  unfold joined at 1. cbn [String.concat].
  now rewrite !append_assoc, append_nil_r.
Qed.

Lemma comments_keep_alert_order_witness :
  IncidentParam.Comments (dataToIncidentParam Sample.config Sample.twoAlerts)
  = "Alerts list:" ++ LF ++ LF ++ alertBlock Sample.alertA
    ++ LF ++ LF ++ alertBlock Sample.alertB.
Proof.
  apply (comments_keep_alert_order Sample.config Sample.twoAlerts
           Sample.alertA Sample.alertB);
    [reflexivity | distinct_names ..].
Defined.

(** C8.  For a notification without alerts the comments of the built
    incident are the header ["Alerts list:"] and nothing else. *)
Theorem comments_of_no_alert (config : Config.t) (data : Data.t) :
  Data.Alerts data = [] ->
  IncidentParam.Comments (dataToIncidentParam config data) = "Alerts list:".
Proof.
  intros Halerts. cbn [dataToIncidentParam IncidentParam.Comments].
  now rewrite Halerts.
Qed.

Lemma comments_of_no_alert_witness :
  IncidentParam.Comments (dataToIncidentParam Sample.config Sample.highCPU)
  = "Alerts list:".
Proof.
  apply (comments_of_no_alert Sample.config Sample.highCPU). reflexivity.
Defined.

(** C9.  For one configuration and any two notifications the assignment
    group, the caller, the impact and the urgency of the built incidents are
    equal: they are the values of the configuration. *)
Theorem static_fields_ignore_payload (config : Config.t) (d1 d2 : Data.t) :
  let p1 := dataToIncidentParam config d1 in
  let p2 := dataToIncidentParam config d2 in
  IncidentParam.AssignmentGroup p1 = IncidentParam.AssignmentGroup p2
  /\ IncidentParam.CallerID p1 = IncidentParam.CallerID p2
  /\ IncidentParam.Impact p1 = IncidentParam.Impact p2
  /\ IncidentParam.Urgency p1 = IncidentParam.Urgency p2
  /\ IncidentParam.AssignmentGroup p1
     = DefaultIncidentConfig.AssignmentGroup (Config.DefaultIncident config)
  /\ IncidentParam.CallerID p1
     = ServiceNowConfig.UserName (Config.ServiceNow config)
  /\ IncidentParam.Impact p1
     = DefaultIncidentConfig.Impact (Config.DefaultIncident config)
  /\ IncidentParam.Urgency p1
     = DefaultIncidentConfig.Urgency (Config.DefaultIncident config).
Proof. repeat split. Qed.

(** C10.  Whatever the tracker answers, one run of [manageIncidents] issues
    one write: one create and no update, or one update and no create. *)
Theorem one_write_per_run {G} (config : Config.t) (serviceNow : ServiceNow G)
  (data : Data.t) (g : G) :
  let issued := snd (run config serviceNow data g) in
  (List.length (filter isCreate issued) = 1
   /\ List.length (filter isUpdate issued) = 0)
  \/ (List.length (filter isCreate issued) = 0
      /\ List.length (filter isUpdate issued) = 1).
Proof.
  destruct (GetIncidents serviceNow (getParamsOf config data) g)
    as [[[|first others] err] g'] eqn:Hget; cbv zeta.
  - rewrite (run_no_incident _ _ _ _ _ _ Hget). left. split; reflexivity.
  - rewrite (run_existing _ _ _ _ _ _ _ _ Hget). right. split; reflexivity.
Qed.

(** * Further properties of the code *)

(** ** The handler *)

Section WebhookFacts.

Context {G : Type}.
Variable config : Config.t.
Variable serviceNow : ServiceNow G.
Variable Decode : string -> Data.t * option error.
Variable Marshal : JSONResponse.t -> string.

(** A decoded request is answered after the result of [manageIncidents],
    and the tracker receives the calls of that run. *)
Lemma serve_decoded (r : http.Request) (g : G) (data : Data.t) :
  Decode (http.Body r) = (data, None) ->
  fst (serve config serviceNow Decode Marshal r g)
  = (match fst (run config serviceNow data g) with
     | Some e => answer Marshal http.StatusInternalServerError e
     | None => answer Marshal http.StatusOK "Success"
     end,
     snd (run config serviceNow data g)).
Proof.
  intros Hdec. unfold serve, webhook, readRequestBody, run, bind.
  rewrite Hdec.
  destruct (manageIncidents config serviceNow data (mkWorld g []))
    as [[e|] w]; reflexivity.
Qed.

Lemma serve_undecoded (r : http.Request) (g : G) (data : Data.t) (e : error) :
  Decode (http.Body r) = (data, Some e) ->
  serve config serviceNow Decode Marshal r g
  = (answer Marshal http.StatusBadRequest e, [], g).
Proof.
  intros Hdec. unfold serve, webhook, readRequestBody. now rewrite Hdec.
Qed.

End WebhookFacts.

(** A request whose body does not decode is answered 400 with the decoder's
    message; the tracker receives no call and keeps its state. *)
Theorem undecodable_body_is_refused {G} (config : Config.t)
  (serviceNow : ServiceNow G) (Decode : string -> Data.t * option error)
  (Marshal : JSONResponse.t -> string) (r : http.Request) (g : G)
  (data : Data.t) (e : error) :
  Decode (http.Body r) = (data, Some e) ->
  serve config serviceNow Decode Marshal r g
  = ([http.WriteHeader 400;
      http.Write (Marshal (JSONResponse.mk 400 e))], [], g).
Proof. intros Hdec. now rewrite (serve_undecoded _ _ _ _ _ _ _ _ Hdec). Qed.

Lemma undecodable_body_is_refused_witness :
  serve Sample.config Memory.tracker Memory.Decode Memory.Marshal
    (http.mkRequest "{") []
  = ([http.WriteHeader 400; http.Write "unexpected end of JSON input"],
     [], []).
Proof.
  apply (undecodable_body_is_refused Sample.config Memory.tracker
           Memory.Decode Memory.Marshal (http.mkRequest "{") []
           (Data.mk "" "" [] [] [] [] "") "unexpected end of JSON input").
  reflexivity.
Defined.

(** When the body decodes and [manageIncidents] returns an error, the
    request is answered 500 with the message of that error, unchanged. *)
Theorem failure_is_answered_500 {G} (config : Config.t)
  (serviceNow : ServiceNow G) (Decode : string -> Data.t * option error)
  (Marshal : JSONResponse.t -> string) (r : http.Request) (g : G)
  (data : Data.t) (e : error) :
  Decode (http.Body r) = (data, None) ->
  fst (run config serviceNow data g) = Some e ->
  fst (fst (serve config serviceNow Decode Marshal r g))
  = [http.WriteHeader 500; http.Write (Marshal (JSONResponse.mk 500 e))].
Proof.
  intros Hdec Hrun.
  rewrite (serve_decoded _ _ _ _ _ _ _ Hdec). simpl. now rewrite Hrun.
Qed.

Lemma failure_is_answered_500_witness :
  fst (fst (serve Sample.config (Sample.scripted [] None (Some "HTTP 403"))
              Memory.Decode Memory.Marshal (http.mkRequest "ok") tt))
  = [http.WriteHeader 500; http.Write "HTTP 403"].
Proof.
  apply (failure_is_answered_500 Sample.config
           (Sample.scripted [] None (Some "HTTP 403"))
           Memory.Decode Memory.Marshal (http.mkRequest "ok") tt
           Sample.highCPU "HTTP 403");
    reflexivity.
Defined.

(** A request is answered 200 "Success" exactly when its body decodes and
    [manageIncidents] returns no error. *)
Theorem success_is_answered_200 {G} (config : Config.t)
  (serviceNow : ServiceNow G) (Decode : string -> Data.t * option error)
  (Marshal : JSONResponse.t -> string) (r : http.Request) (g : G) :
  fst (fst (serve config serviceNow Decode Marshal r g))
  = [http.WriteHeader 200;
     http.Write (Marshal (JSONResponse.mk 200 "Success"))]
  <-> exists data,
        Decode (http.Body r) = (data, None)
        /\ fst (run config serviceNow data g) = None.
Proof.
  destruct (Decode (http.Body r)) as [data [e|]] eqn:Hdec.
  - rewrite (serve_undecoded _ _ _ _ _ _ _ _ Hdec). simpl. split.
    + intros H. discriminate H.
    + intros (data' & H & _). discriminate H.
  - rewrite (serve_decoded _ _ _ _ _ _ _ Hdec). simpl.
    destruct (fst (run config serviceNow data g)) as [e|] eqn:Hrun; split.
    + intros H. discriminate H.
    + intros (data' & H & Hr). inversion H; subst data'. congruence.
    + intros _. exists data. now split.
    + reflexivity.
Qed.

(** Every request gets one answer: one header and one body, the header
    200, 400 or 500, the body the [JSONResponse] with that status. *)
Theorem one_answer_per_request {G} (config : Config.t)
  (serviceNow : ServiceNow G) (Decode : string -> Data.t * option error)
  (Marshal : JSONResponse.t -> string) (r : http.Request) (g : G) :
  exists status message,
    fst (fst (serve config serviceNow Decode Marshal r g))
    = [http.WriteHeader status;
       http.Write (Marshal (JSONResponse.mk status message))]
    /\ (status = 200 \/ status = 400 \/ status = 500)%Z.
Proof.
  destruct (Decode (http.Body r)) as [data [e|]] eqn:Hdec.
  - rewrite (serve_undecoded _ _ _ _ _ _ _ _ Hdec).
    exists 400%Z, e. split; [reflexivity | tauto].
  - rewrite (serve_decoded _ _ _ _ _ _ _ Hdec). simpl.
    destruct (fst (run config serviceNow data g)) as [e|].
    + exists 500%Z, e. split; [reflexivity | tauto].
    + exists 200%Z, "Success". split; [reflexivity | tauto].
Qed.

(** A failed lookup is answered 200 "Success" when it returns no incident
    and the create that follows succeeds: the error of the lookup reaches
    neither the result nor the answer. *)
Theorem failed_lookup_is_answered_200 {G} (config : Config.t)
  (serviceNow : ServiceNow G) (Decode : string -> Data.t * option error)
  (Marshal : JSONResponse.t -> string) (r : http.Request) (g g' : G)
  (data : Data.t) (e : error) :
  Decode (http.Body r) = (data, None) ->
  GetIncidents serviceNow (getParamsOf config data) g = (([], Some e), g') ->
  snd (fst (CreateIncident serviceNow (dataToIncidentParam config data) g'))
  = None ->
  fst (serve config serviceNow Decode Marshal r g)
  = ([http.WriteHeader 200;
      http.Write (Marshal (JSONResponse.mk 200 "Success"))],
     [CallGet (getParamsOf config data);
      CallCreate (dataToIncidentParam config data)]).
Proof.
  intros Hdec Hget Hcreate.
  rewrite (serve_decoded _ _ _ _ _ _ _ Hdec).
  rewrite (run_no_incident _ _ _ _ _ _ Hget). simpl. now rewrite Hcreate.
Qed.

Lemma failed_lookup_is_answered_200_witness :
  fst (serve Sample.config (Sample.scripted [] (Some "timeout") None)
         Memory.Decode Memory.Marshal (http.mkRequest "ok") tt)
  = ([http.WriteHeader 200; http.Write "Success"],
     [CallGet (getParamsOf Sample.config Sample.highCPU);
      CallCreate (dataToIncidentParam Sample.config Sample.highCPU)]).
Proof.
  apply (failed_lookup_is_answered_200 Sample.config
           (Sample.scripted [] (Some "timeout") None)
           Memory.Decode Memory.Marshal (http.mkRequest "ok") tt tt
           Sample.highCPU "timeout");
    reflexivity.
Defined.

(** ** The reconciliation, further *)

(** When no incident is found and the create fails, [manageIncidents]
    returns the error of the create, unchanged, and issues no other
    write. *)
Theorem create_failure_is_returned {G} (config : Config.t)
  (serviceNow : ServiceNow G) (data : Data.t) (g g' g'' : G)
  (err : option error) (created : option Incident.t) (e : error) :
  GetIncidents serviceNow (getParamsOf config data) g = (([], err), g') ->
  CreateIncident serviceNow (dataToIncidentParam config data) g'
  = ((created, Some e), g'') ->
  run config serviceNow data g
  = (Some e, [CallGet (getParamsOf config data);
              CallCreate (dataToIncidentParam config data)]).
Proof.
  intros Hget Hcreate. rewrite (run_no_incident _ _ _ _ _ _ Hget).
  now rewrite Hcreate.
Qed.

Lemma create_failure_is_returned_witness :
  run Sample.config (Sample.scripted [] None (Some "HTTP 403"))
    Sample.highCPU tt
  = (Some "HTTP 403",
     [CallGet (getParamsOf Sample.config Sample.highCPU);
      CallCreate (dataToIncidentParam Sample.config Sample.highCPU)]).
Proof.
  apply (create_failure_is_returned Sample.config
           (Sample.scripted [] None (Some "HTTP 403")) Sample.highCPU
           tt tt tt None None "HTTP 403");
    reflexivity.
Defined.

(** When incidents are found and the update fails, [manageIncidents]
    returns the error of the update, unchanged; it does not fall back to a
    create and does not try the other incidents. *)
Theorem update_failure_is_returned {G} (config : Config.t)
  (serviceNow : ServiceNow G) (data : Data.t) (g g' g'' : G)
  (first : Incident.t) (others : list Incident.t) (err : option error)
  (updated : option Incident.t) (e : error) :
  GetIncidents serviceNow (getParamsOf config data) g
  = ((first :: others, err), g') ->
  UpdateIncident serviceNow (dataToIncidentParam config data)
    (Incident.GetSysID first) g' = ((updated, Some e), g'') ->
  run config serviceNow data g
  = (Some e, [CallGet (getParamsOf config data);
              CallUpdate (dataToIncidentParam config data)
                (Incident.GetSysID first)]).
Proof.
  intros Hget Hupdate. rewrite (run_existing _ _ _ _ _ _ _ _ Hget).
  now rewrite Hupdate.
Qed.

Lemma update_failure_is_returned_witness :
  run Sample.config
    (Sample.scripted [Sample.T1; Sample.T2] None (Some "HTTP 500"))
    Sample.highCPU tt
  = (Some "HTTP 500",
     [CallGet (getParamsOf Sample.config Sample.highCPU);
      CallUpdate (dataToIncidentParam Sample.config Sample.highCPU)
        "abc123"]).
Proof.
  apply (update_failure_is_returned Sample.config
           (Sample.scripted [Sample.T1; Sample.T2] None (Some "HTTP 500"))
           Sample.highCPU tt tt tt Sample.T1 [Sample.T2] None None
           "HTTP 500");
    reflexivity.
Defined.

(** An error that [manageIncidents] returns is the error of the write it
    issued, made in the state the lookup left: either no incident was found,
    the calls are the lookup and a create, and the create answered with that
    error; or incidents were found, the calls are the lookup and an update of
    the first, and the update answered with that error.  The error of the
    lookup is never returned. *)
Theorem failure_comes_from_the_write {G} (config : Config.t)
  (serviceNow : ServiceNow G) (data : Data.t) (g : G) (e : error) :
  fst (run config serviceNow data g) = Some e ->
  let p := dataToIncidentParam config data in
  let params := getParamsOf config data in
  let found := fst (fst (GetIncidents serviceNow params g)) in
  let g' := snd (GetIncidents serviceNow params g) in
  (found = []
   /\ snd (run config serviceNow data g) = [CallGet params; CallCreate p]
   /\ snd (fst (CreateIncident serviceNow p g')) = Some e)
  \/ (exists first others,
        found = first :: others
        /\ snd (run config serviceNow data g)
           = [CallGet params; CallUpdate p (Incident.GetSysID first)]
        /\ snd (fst (UpdateIncident serviceNow p (Incident.GetSysID first) g'))
           = Some e).
Proof.
  intros Hrun. cbv zeta.
  destruct (GetIncidents serviceNow (getParamsOf config data) g)
    as [[[|first others] err] g'] eqn:Hget; simpl.
  - left. rewrite (run_no_incident _ _ _ _ _ _ Hget) in Hrun |- *.
    now repeat split.
  - right. exists first, others.
    rewrite (run_existing _ _ _ _ _ _ _ _ Hget) in Hrun |- *.
    now repeat split.
Qed.

Lemma failure_comes_from_the_write_witness :
  let serviceNow := Sample.scripted [] (Some "timeout") (Some "HTTP 403") in
  let p := dataToIncidentParam Sample.config Sample.highCPU in
  let params := getParamsOf Sample.config Sample.highCPU in
  (fst (fst (GetIncidents serviceNow params tt)) = []
   /\ snd (run Sample.config serviceNow Sample.highCPU tt)
      = [CallGet params; CallCreate p]
   /\ snd (fst (CreateIncident serviceNow p tt)) = Some "HTTP 403")
  \/ (exists first others,
        fst (fst (GetIncidents serviceNow params tt)) = first :: others
        /\ snd (run Sample.config serviceNow Sample.highCPU tt)
           = [CallGet params; CallUpdate p (Incident.GetSysID first)]
        /\ snd (fst (UpdateIncident serviceNow p (Incident.GetSysID first) tt))
           = Some "HTTP 403").
Proof.
  apply (failure_comes_from_the_write Sample.config
           (Sample.scripted [] (Some "timeout") (Some "HTTP 403"))
           Sample.highCPU tt "HTTP 403").
  reflexivity.
Defined.

(** The value [manageIncidents] looks up is the value it writes: the one
    parameter of the lookup names the configured field and carries the
    [GroupKey] of the incident sent with the write that follows. *)
Theorem lookup_key_is_written_key {G} (config : Config.t)
  (serviceNow : ServiceNow G) (data : Data.t) (g : G) :
  exists p,
    let lookup :=
      CallGet [(ServiceNowConfig.IncidentGroupKeyField
                  (Config.ServiceNow config), IncidentParam.GroupKey p)] in
    snd (run config serviceNow data g) = [lookup; CallCreate p]
    \/ exists sysID, snd (run config serviceNow data g)
                     = [lookup; CallUpdate p sysID].
Proof.
  exists (dataToIncidentParam config data). cbv zeta.
  destruct (GetIncidents serviceNow (getParamsOf config data) g)
    as [[[|first others] err] g'] eqn:Hget.
  - left. now rewrite (run_no_incident _ _ _ _ _ _ Hget).
  - right. exists (Incident.GetSysID first).
    now rewrite (run_existing _ _ _ _ _ _ _ _ Hget).
Qed.

Section ManageFacts.

Context {G : Type}.
Variable config : Config.t.
Variable serviceNow : ServiceNow G.

(** [manageIncidents] in any world, no incident found. *)
Lemma manage_no_incident (data : Data.t) (w : World G) (g' : G)
  (err : option error) :
  GetIncidents serviceNow (getParamsOf config data) (tracker w)
  = (([], err), g') ->
  manageIncidents config serviceNow data w
  = (snd (fst (CreateIncident serviceNow (dataToIncidentParam config data) g')),
     mkWorld
       (snd (CreateIncident serviceNow (dataToIncidentParam config data) g'))
       (calls w ++ [CallGet (getParamsOf config data);
                    CallCreate (dataToIncidentParam config data)])).
Proof.
  intros Hget. unfold manageIncidents, bind, invoke. simpl.
  fold (getParamsOf config data). rewrite Hget. simpl.
  destruct (CreateIncident serviceNow (dataToIncidentParam config data) g')
    as [[created [e|]] g'']; simpl; now rewrite <- app_assoc.
Qed.

(** [manageIncidents] in any world, incidents found. *)
Lemma manage_existing (data : Data.t) (w : World G) (g' : G)
  (first : Incident.t) (others : list Incident.t) (err : option error) :
  GetIncidents serviceNow (getParamsOf config data) (tracker w)
  = ((first :: others, err), g') ->
  manageIncidents config serviceNow data w
  = (snd (fst (UpdateIncident serviceNow (dataToIncidentParam config data)
                 (Incident.GetSysID first) g')),
     mkWorld
       (snd (UpdateIncident serviceNow (dataToIncidentParam config data)
               (Incident.GetSysID first) g'))
       (calls w ++ [CallGet (getParamsOf config data);
                    CallUpdate (dataToIncidentParam config data)
                      (Incident.GetSysID first)])).
Proof.
  intros Hget. unfold manageIncidents, bind, invoke. simpl.
  fold (getParamsOf config data). rewrite Hget. simpl.
  unfold Incident.GetSysID.
  destruct (UpdateIncident serviceNow (dataToIncidentParam config data)
              (Incident.sysID first) g')
    as [[updated [e|]] g'']; simpl; now rewrite <- app_assoc.
Qed.

End ManageFacts.

(** A notification delivered again, its group labels in any order, updates
    the ticket the first delivery created: when the tracker finds nothing
    at first, accepts the create and then finds a ticket under the same
    lookup, the two deliveries issue lookup, create, the same lookup, and
    one update of that ticket. *)
Theorem redelivery_updates_the_ticket {G} (config : Config.t)
  (serviceNow : ServiceNow G) (d d' : Data.t) (g0 g1 g2 g3 : G)
  (e0 e2 : option error) (created : option Incident.t)
  (ticket : Incident.t) (others : list Incident.t) :
  wf (Data.GroupLabels d) ->
  Permutation (Data.GroupLabels d) (Data.GroupLabels d') ->
  GetIncidents serviceNow (getParamsOf config d) g0 = (([], e0), g1) ->
  CreateIncident serviceNow (dataToIncidentParam config d) g1
  = ((created, None), g2) ->
  GetIncidents serviceNow (getParamsOf config d) g2
  = ((ticket :: others, e2), g3) ->
  snd (deliverTwice config serviceNow d d' g0)
  = [CallGet (getParamsOf config d);
     CallCreate (dataToIncidentParam config d);
     CallGet (getParamsOf config d);
     CallUpdate (dataToIncidentParam config d') (Incident.GetSysID ticket)].
Proof.
  intros Hwf HP Hget0 Hcreate Hget2.
  assert (Hpar : getParamsOf config d' = getParamsOf config d).
  { unfold getParamsOf, getGroupKey.
    now rewrite (SortedPairs_order_irrelevant _ _ Hwf HP). }
  unfold deliverTwice, bind.
  rewrite (manage_no_incident config serviceNow d (mkWorld g0 []) g1 e0 Hget0).
  rewrite Hcreate. simpl.
  rewrite <- Hpar in Hget2.
  rewrite (manage_existing config serviceNow d'
             (mkWorld g2 [CallGet (getParamsOf config d);
                          CallCreate (dataToIncidentParam config d)])
             g3 ticket others e2 Hget2).
  simpl. now rewrite Hpar.
Qed.

Lemma redelivery_updates_the_ticket_witness :
  snd (deliverTwice Sample.config Memory.tracker Sample.highCPU
         Sample.highCPU' [])
  = [CallGet (getParamsOf Sample.config Sample.highCPU);
     CallCreate (dataToIncidentParam Sample.config Sample.highCPU);
     CallGet (getParamsOf Sample.config Sample.highCPU);
     CallUpdate (dataToIncidentParam Sample.config Sample.highCPU')
       "id:[{alertname HighCPU} {job node}]"].
Proof.
  apply (redelivery_updates_the_ticket Sample.config Memory.tracker
           Sample.highCPU Sample.highCPU' [] []
           [("[{alertname HighCPU} {job node}]",
             Incident.mk "INC0100" "id:[{alertname HighCPU} {job node}]")]
           [("[{alertname HighCPU} {job node}]",
             Incident.mk "INC0100" "id:[{alertname HighCPU} {job node}]")]
           None None
           (Some (Incident.mk "INC0100" "id:[{alertname HighCPU} {job node}]"))
           (Incident.mk "INC0100" "id:[{alertname HighCPU} {job node}]") []).
  - distinct_names.
  - simpl. apply perm_swap.
  - reflexivity.
  - reflexivity.
  - reflexivity.
Defined.

(** ** The built incident, further *)

Section IncidentFacts.

Lemma alertText_order_irrelevant (a a' : Alert.t) :
  wfAlert a -> sameAlert a a' -> alertText a = alertText a'.
Proof.
  intros [Hl Ha] (Hst & Hat & HPl & HPa).
  rewrite !alertText_spec, Hst, Hat.
  rewrite (SortedPairs_order_irrelevant _ _ Hl HPl).
  now rewrite (SortedPairs_order_irrelevant _ _ Ha HPa).
Qed.

Lemma alertTexts_order_irrelevant (l l' : list Alert.t) :
  Forall wfAlert l -> Forall2 sameAlert l l' ->
  map alertText l = map alertText l'.
Proof.
  intros Hwf HF. induction HF as [|a a' l l' Ha HF IH]; [reflexivity|].
  inversion Hwf as [|? ? Hwa Hwl]; subst. simpl.
  now rewrite (alertText_order_irrelevant a a' Hwa Ha), (IH Hwl).
Qed.

Lemma commentBuilder_texts (l : list Alert.t) (b : string) :
  fold_left writeAlert l b
  = b ++ joined (map (fun t => LF ++ LF ++ t) (map alertText l)).
Proof. now rewrite commentBuilder_spec, map_map. Qed.

(** The two prints of some pairs never have the same length. *)
Lemma print_lengths_differ (ps : Pairs) :
  len (fmt.Sprint_Pairs ps)
  = len (String.concat ", " (map labelText ps))
    + match ps with [] => 2 | _ :: _ => 3 end.
Proof.
  unfold fmt.Sprint_Pairs. destruct ps as [|p r]; [reflexivity|].
  cbn [map]. rewrite !concat_cons, !map_map.
  assert (Hrest :
    len (joined (map (fun x => " " ++ fmt.Sprint_Pair x) r))
    = len (joined (map (fun x => ", " ++ labelText x) r))).
  { induction r as [|q r IH]; [reflexivity|].
    cbn [map]. rewrite !joined_cons, !len_append, IH.
    unfold fmt.Sprint_Pair, labelText. rewrite !len_append. simpl. lia. }
  rewrite !len_append, Hrest.
  unfold fmt.Sprint_Pair, labelText. rewrite !len_append. simpl. lia.
Qed.

End IncidentFacts.

(** The built incident does not depend on the order in which Go visits the
    maps of the notification: two notifications with the same receiver,
    status, URL, group labels and alerts (in the same order), whose label
    and annotation maps are listed in any order, give the same incident,
    field for field.  The common labels, the common annotations and the
    end and generator URL of an alert have no part in it. *)
Theorem incident_ignores_map_order (config : Config.t) (d d' : Data.t) :
  wf (Data.GroupLabels d) ->
  Forall wfAlert (Data.Alerts d) ->
  sameNotification d d' ->
  dataToIncidentParam config d = dataToIncidentParam config d'.
Proof.
  intros Hwf Hwa (Hrc & Hst & Hurl & HP & HF).
  unfold dataToIncidentParam, getGroupKey.
  rewrite !commentBuilder_texts.
  rewrite (alertTexts_order_irrelevant _ _ Hwa HF).
  rewrite (SortedPairs_order_irrelevant _ _ Hwf HP).
  now rewrite Hrc, Hst, Hurl.
Qed.

Lemma incident_ignores_map_order_witness :
  dataToIncidentParam Sample.config Sample.twoAlerts
  = dataToIncidentParam Sample.config
      (Data.mk "servicenow" "firing"
         [Alert.mk "firing" [("account", "prod"); ("alertname", "HighCPU")]
            [("summary", "cpu high")] Sample.noon
            (time.mkTime "0001-01-01 00:00:00 +0000 UTC") "http://prometheus";
          Sample.alertB]
         [("alertname", "HighCPU")] [("job", "node")] [("runbook", "none")]
         "http://alertmanager:9093").
Proof.
  apply (incident_ignores_map_order Sample.config Sample.twoAlerts).
  - distinct_names.
  - repeat constructor; distinct_names.
  - repeat split; simpl; try reflexivity.
    constructor.
    + repeat split; simpl; try reflexivity. apply perm_swap.
    + constructor; [|constructor]. repeat split; reflexivity.
Defined.

(** Alerts added at the end of a notification add their blocks at the end
    of the comments and leave what comes before unchanged. *)
Theorem comments_grow_at_the_end (config : Config.t) (d d' : Data.t)
  (more : list Alert.t) :
  Data.Alerts d' = (Data.Alerts d ++ more)%list ->
  IncidentParam.Comments (dataToIncidentParam config d')
  = IncidentParam.Comments (dataToIncidentParam config d)
    ++ joined (map (fun a => LF ++ LF ++ alertText a) more).
Proof.
  intros Halerts. cbn [dataToIncidentParam IncidentParam.Comments].
  now rewrite Halerts, fold_left_app, commentBuilder_spec.
Qed.

Lemma comments_grow_at_the_end_witness :
  IncidentParam.Comments (dataToIncidentParam Sample.config Sample.twoAlerts)
  = IncidentParam.Comments (dataToIncidentParam Sample.config Sample.highCPU)
    ++ joined (map (fun a => LF ++ LF ++ alertText a)
                 [Sample.alertA; Sample.alertB]).
Proof.
  apply (comments_grow_at_the_end Sample.config Sample.highCPU
           Sample.twoAlerts [Sample.alertA; Sample.alertB]).
  reflexivity.
Defined.

(** For every status, the short description and the first line of the
    description carry one and the same rendering of the group labels; the
    description goes on with the receiver line and the source URL line. *)
Theorem description_and_short_description (config : Config.t)
  (data : Data.t) :
  wf (Data.GroupLabels data) ->
  let text :=
    String.concat ", " (map labelText (alertnameFirst (Data.GroupLabels data)))
  in
  IncidentParam.ShortDescription (dataToIncidentParam config data)
  = "[" ++ Data.Status data ++ "] " ++ text
  /\ IncidentParam.Description (dataToIncidentParam config data)
     = "Group key: " ++ text
       ++ LF ++ "AlertManager receiver: " ++ Data.Receiver data
       ++ LF ++ "AlertManager source URL: " ++ Data.ExternalURL data.
Proof.
  intros Hwf. cbv zeta.
  cbn [dataToIncidentParam IncidentParam.ShortDescription
         IncidentParam.Description].
  rewrite groupKeyBuilder_spec, (SortedPairs_spec _ Hwf).
  split; [now rewrite !append_assoc|].
  now rewrite !append_assoc.
Qed.

Lemma description_and_short_description_witness :
  IncidentParam.ShortDescription
    (dataToIncidentParam Sample.config Sample.highCPU')
  = "[firing] alertname: HighCPU, job: node"
  /\ IncidentParam.Description
       (dataToIncidentParam Sample.config Sample.highCPU')
     = "Group key: alertname: HighCPU, job: node"
       ++ LF ++ "AlertManager receiver: servicenow"
       ++ LF ++ "AlertManager source URL: http://alertmanager:9093".
Proof.
  apply (description_and_short_description Sample.config Sample.highCPU').
  distinct_names.
Defined.

(** The group key shown in the texts is never the group key stored: for
    every notification the short description is not ["[status] "] followed
    by the [GroupKey] field, and the description does not begin with
    ["Group key: "] followed by the [GroupKey] field and the receiver
    line. *)
Theorem shown_key_is_not_stored_key (config : Config.t) (data : Data.t) :
  let p := dataToIncidentParam config data in
  IncidentParam.ShortDescription p
  <> "[" ++ Data.Status data ++ "] " ++ IncidentParam.GroupKey p
  /\ IncidentParam.Description p
     <> "Group key: " ++ IncidentParam.GroupKey p
        ++ LF ++ "AlertManager receiver: " ++ Data.Receiver data
        ++ LF ++ "AlertManager source URL: " ++ Data.ExternalURL data.
Proof.
  cbv zeta.
  cbn [dataToIncidentParam IncidentParam.ShortDescription
         IncidentParam.Description IncidentParam.GroupKey].
  rewrite groupKeyBuilder_spec. unfold getGroupKey.
  pose proof (print_lengths_differ (SortedPairs (Data.GroupLabels data)))
    as Hlen.
  split; intros H; apply (f_equal len) in H; rewrite !len_append in H;
    destruct (SortedPairs (Data.GroupLabels data)); lia.
Qed.

(** ** The group key names the group *)

Section KeyFacts.

(** A text is cut in one way at the first occurrence of a byte. *)
Lemma cut_at_byte (c : ascii) (s1 s2 r1 r2 : string) :
  hasByte c s1 = false -> hasByte c s2 = false ->
  s1 ++ String c r1 = s2 ++ String c r2 -> s1 = s2 /\ r1 = r2.
Proof.
  revert s2. induction s1 as [|a s1 IH]; intros [|b s2]; simpl.
  - intros _ _ H. inversion H. now split.
  - intros _ Hb H. inversion H; subst.
    now rewrite Ascii.eqb_refl in Hb.
  - intros Ha _ H. inversion H; subst.
    now rewrite Ascii.eqb_refl in Ha.
  - intros Ha Hb H. inversion H; subst.
    apply orb_false_iff in Ha as [_ Ha]. apply orb_false_iff in Hb as [_ Hb].
    destruct (IH s2 Ha Hb H2) as [-> ->]. now split.
Qed.

Lemma afterBracket_cons (p : Pair) (r : Pairs) :
  afterBracket (p :: r)
  = String "{" (Name p ++ String " " (Value p ++ String "}" (afterPair r))).
Proof.
  unfold afterBracket. destruct r as [|q r].
  - simpl. unfold fmt.Sprint_Pair.
    repeat first [rewrite append_assoc | progress cbn [append]]. reflexivity.
  - change (String.concat " " (map fmt.Sprint_Pair (p :: q :: r)))
      with (fmt.Sprint_Pair p ++ " "
            ++ String.concat " " (map fmt.Sprint_Pair (q :: r))).
    unfold fmt.Sprint_Pair at 1. unfold afterPair.
    repeat first [rewrite append_assoc | progress cbn [append]]. reflexivity.
Qed.

(** The print of plain pairs can be read back. *)
Lemma afterBracket_inj (ps ps' : Pairs) :
  forallb (fun p => plainLabel (entryOf p)) ps = true ->
  forallb (fun p => plainLabel (entryOf p)) ps' = true ->
  afterBracket ps = afterBracket ps' -> ps = ps'.
Proof.
  revert ps'. induction ps as [|p r IH]; intros [|p' r'].
  - reflexivity.
  - intros _ _ H. rewrite afterBracket_cons in H. discriminate H.
  - intros _ _ H. rewrite afterBracket_cons in H. discriminate H.
  - cbn [forallb]. intros Hp Hp' H.
    apply andb_true_iff in Hp as [Hp Hr].
    apply andb_true_iff in Hp' as [Hp' Hr'].
    unfold plainLabel, entryOf in Hp, Hp'. cbn [fst snd] in Hp, Hp'.
    apply andb_true_iff in Hp as [Hn Hv].
    apply andb_true_iff in Hp' as [Hn' Hv'].
    apply negb_true_iff in Hn, Hv, Hn', Hv'.
    rewrite !afterBracket_cons in H. inversion H as [H1]. clear H.
    destruct (cut_at_byte _ _ _ _ _ Hn Hn' H1) as [En H2].
    destruct (cut_at_byte _ _ _ _ _ Hv Hv' H2) as [Ev H3].
    assert (Er : r = r').
    { destruct r as [|q r0], r' as [|q' r0']; simpl in H3.
      - reflexivity.
      - discriminate H3.
      - discriminate H3.
      - inversion H3 as [H4]. now apply IH. }
    destruct p, p'. simpl in En, Ev. now subst.
Qed.

(** [SortedPairs] lists the entries of the map: none is lost, none comes
    twice. *)
Lemma SortedPairs_entries (kv : KV) :
  wf kv -> Permutation (map entryOf (SortedPairs kv)) kv.
Proof.
  intros Hwf. rewrite (SortedPairs_spec kv Hwf). unfold alertnameFirst.
  rewrite map_map.
  rewrite (Permutation_map _ (alertnameFirstKeys_perm (keys kv) Hwf)).
  unfold keys. rewrite map_map.
  rewrite (map_ext_in _ (fun e => e)); [now rewrite map_id|].
  intros [k v] Hin. unfold entryOf, pairOf. simpl.
  now rewrite (get_In kv k v Hwf Hin).
Qed.

Lemma SortedPairs_plain (kv : KV) :
  wf kv -> plainLabels kv = true ->
  forallb (fun p => plainLabel (entryOf p)) (SortedPairs kv) = true.
Proof.
  intros Hwf Hplain. apply forallb_forall. intros p Hp.
  unfold plainLabels in Hplain. rewrite forallb_forall in Hplain.
  apply Hplain. eapply Permutation_in; [apply (SortedPairs_entries kv Hwf)|].
  now apply in_map.
Qed.

End KeyFacts.

(** Two groups with the same group key have the same labels, when no label
    name holds a space and no label value a closing brace: with the order
    invariance, the key then names the label set and nothing else. *)
Theorem group_key_names_the_labels (d d' : Data.t) :
  wf (Data.GroupLabels d) -> wf (Data.GroupLabels d') ->
  plainLabels (Data.GroupLabels d) = true ->
  plainLabels (Data.GroupLabels d') = true ->
  getGroupKey d = getGroupKey d' ->
  Permutation (Data.GroupLabels d) (Data.GroupLabels d').
Proof.
  intros Hwf Hwf' Hpl Hpl' Hkey.
  unfold getGroupKey, fmt.Sprint_Pairs in Hkey.
  inversion Hkey as [H].
  apply afterBracket_inj in H; try now apply SortedPairs_plain.
  rewrite <- (SortedPairs_entries _ Hwf), H.
  now apply SortedPairs_entries.
Qed.

Lemma group_key_names_the_labels_witness :
  Permutation (Data.GroupLabels Sample.highCPU)
    (Data.GroupLabels Sample.highCPU').
Proof.
  apply (group_key_names_the_labels Sample.highCPU Sample.highCPU').
  - distinct_names.
  - distinct_names.
  - reflexivity.
  - reflexivity.
  - reflexivity.
Defined.

(** Without that condition two groups can share a key: a value that holds
    ["} {"] prints like two pairs. *)
Lemma closing_brace_in_a_value_collides :
  let d := Sample.notification "firing" [("a", "x} {b y")] [] in
  let d' := Sample.notification "firing" [("a", "x"); ("b", "y")] [] in
  getGroupKey d = getGroupKey d'
  /\ ~ Permutation (Data.GroupLabels d) (Data.GroupLabels d').
Proof.
  split; [reflexivity|].
  intros HP. apply Permutation_length in HP. discriminate HP.
Qed.
